(** * simple.c: a platform driver exposing one byte-wide register as a
    misc device

    Shallow embedding of [simple.c].  The driver's functions are written in a
    small state-and-fault monad over a [world] that holds what the driver can
    observe of the kernel: the mapped I/O memory, the user memory reachable
    through the uaccess helpers, the devm-allocated private structs, the
    driver-data pointer of the platform device, the list of registered misc
    devices, the device-managed resource list and a chronological trace of
    the kernel services that were invoked. *)

From Stdlib Require Import ZArith String List Lia.
From stdpp Require Import base gmap strings list.

Local Open Scope Z_scope.

(** ** Constants of the kernel headers used by the driver *)

Definition ENOMEM : Z := 12.
Definition EBUSY : Z := 16.
Definition EINVAL : Z := 22.
Definition MAX_ERRNO : Z := 4095.
Definition MISC_DYNAMIC_MINOR : Z := 255.
Definition IORESOURCE_MEM : Z := 512.
Definition DRIVER_NAME : string := "simple".

(** Pointers are machine words, taken 32 bits wide; the width only fixes
    the numeric value of the [ERR_PTR] constants. *)
Definition BITS_PER_LONG : Z := 32.
Definition NULL : Z := 0.

(** [ERR_PTR] and [IS_ERR] of linux/err.h: an errno is carried in the last
    page of the address space. *)
Definition ERR_PTR (error : Z) : Z := error mod 2 ^ BITS_PER_LONG.
Definition IS_ERR (p : Z) : bool := 2 ^ BITS_PER_LONG - MAX_ERRNO <=? p.

(** ** C integer conversions for [char] and [u8] *)

(** Conversion of a [u8] to [char]: the identity where [char] is unsigned,
    the two's complement reading where it is signed. *)
Definition char_of_u8 (char_signed : bool) (v : Z) : Z :=
  if char_signed && (128 <=? v) then v - 256 else v.

(** Conversion of a [char] to [u8], which is also the byte stored in the
    [char] object. *)
Definition u8_of_char (c : Z) : Z := c mod 256.

(** ** Data structures *)

(** The driver has a single callback table, [simple_fops]; a misc device
    refers to it by address. *)
Inductive fops_ref : Type := simple_fops_ref.

Record miscdevice : Type := {
  minor : Z;
  name : option string;
  fops : option fops_ref }.

Record simple_private : Type := {
  miscdev : miscdevice;
  addr : Z }.

(** [miscdev] is the first member of [struct simple_private]. *)
Definition offsetof_miscdev : Z := 0.

(** [container_of(misc, struct simple_private, miscdev)]. *)
Definition miscdev_to_simple (misc : Z) : Z := misc - offsetof_miscdev.

(** [&priv->miscdev]. *)
Definition miscdev_of_simple (priv : Z) : Z := priv + offsetof_miscdev.

Record file : Type := { private_data : Z }.

Record resource : Type := {
  res_start : Z;
  res_end : Z;
  res_flags : Z }.

Record platform_device : Type := { pdev_resources : list resource }.

(** Entries of the device-managed resource list of the platform device. *)
Inductive devres_entry : Type :=
| DevresMem (p : Z)
| DevresIomap (va : Z).

(** Kernel services invoked by the driver, in the order they happen. *)
Inductive event : Type :=
| EvIoread8 (a v : Z)
| EvIowrite8 (v a : Z)
| EvCopyToUser (to n uncopied : Z)
| EvCopyFromUser (from n uncopied : Z)
| EvDevErr (msg : string)
| EvKzalloc (p : Z)
| EvIoremapResource (p : Z)
| EvSetDrvdata (p : Z)
| EvMiscRegister (misc ret : Z)
| EvMiscDeregister (misc : Z)
| EvDevresRelease (e : devres_entry).

Record world : Type := {
  iomem : gmap Z Z;               (* mapped device bytes, by virtual address *)
  umem : gmap Z Z;                (* accessible user bytes, by user address *)
  kmem : gmap Z simple_private;   (* live private structs, by address *)
  drvdata : Z;                    (* driver data of the platform device *)
  misc_list : list Z;             (* registered misc devices *)
  devres : list devres_entry;     (* managed resources, oldest first *)
  trace : list event }.

Definition set_iomem (f : gmap Z Z -> gmap Z Z) (w : world) : world :=
  {| iomem := f (iomem w); umem := umem w; kmem := kmem w; drvdata := drvdata w;
     misc_list := misc_list w; devres := devres w; trace := trace w |}.

Definition set_umem (f : gmap Z Z -> gmap Z Z) (w : world) : world :=
  {| iomem := iomem w; umem := f (umem w); kmem := kmem w; drvdata := drvdata w;
     misc_list := misc_list w; devres := devres w; trace := trace w |}.

Definition set_kmem (f : gmap Z simple_private -> gmap Z simple_private)
    (w : world) : world :=
  {| iomem := iomem w; umem := umem w; kmem := f (kmem w); drvdata := drvdata w;
     misc_list := misc_list w; devres := devres w; trace := trace w |}.

Definition set_drvdata (p : Z) (w : world) : world :=
  {| iomem := iomem w; umem := umem w; kmem := kmem w; drvdata := p;
     misc_list := misc_list w; devres := devres w; trace := trace w |}.

Definition set_misc_list (f : list Z -> list Z) (w : world) : world :=
  {| iomem := iomem w; umem := umem w; kmem := kmem w; drvdata := drvdata w;
     misc_list := f (misc_list w); devres := devres w; trace := trace w |}.

Definition set_devres (f : list devres_entry -> list devres_entry)
    (w : world) : world :=
  {| iomem := iomem w; umem := umem w; kmem := kmem w; drvdata := drvdata w;
     misc_list := misc_list w; devres := f (devres w); trace := trace w |}.

Definition log_event (e : event) (w : world) : world :=
  {| iomem := iomem w; umem := umem w; kmem := kmem w; drvdata := drvdata w;
     misc_list := misc_list w; devres := devres w; trace := trace w ++ [e] |}.

(** ** The monad of kernel code: state passing with a fault outcome *)

Inductive outcome (A : Type) : Type :=
| Ret (a : A) (w : world)
| Oops (w : world).

Arguments Ret {A} a w.
Arguments Oops {A} w.

Definition kernel (A : Type) : Type := world -> outcome A.

Definition ret {A} (a : A) : kernel A := fun w => Ret a w.

Definition bind {A B} (m : kernel A) (k : A -> kernel B) : kernel B :=
  fun w => match m w with
           | Ret a w' => k a w'
           | Oops w' => Oops w'
           end.

Declare Scope kernel_scope.
Delimit Scope kernel_scope with kernel.
Notation "x <- m ;; k" := (bind m (fun x => k))
  (at level 100, m at next level, right associativity) : kernel_scope.
Notation "m ;; k" := (bind m (fun _ => k))
  (at level 100, right associativity) : kernel_scope.
Local Open Scope kernel_scope.

(** ** Kernel services *)

(** [ioread8]: one byte-wide load from mapped I/O memory; touching an
    address that is not mapped faults. *)
Definition ioread8 (a : Z) : kernel Z := fun w =>
  match iomem w !! a with
  | Some v => Ret v (log_event (EvIoread8 a v) w)
  | None => Oops w
  end.

(** [iowrite8]: one byte-wide store to mapped I/O memory. *)
Definition iowrite8 (v : Z) (a : Z) : kernel unit := fun w =>
  match iomem w !! a with
  | Some _ => Ret tt (log_event (EvIowrite8 v a) (set_iomem (<[a := v]>) w))
  | None => Oops w
  end.

(** Bytes are stored to user memory in address order until the first
    inaccessible byte; the result is the new memory and the number of bytes
    that could not be stored. *)
Fixpoint put_user_bytes (to : Z) (bytes : list Z) (m : gmap Z Z)
    : gmap Z Z * Z :=
  match bytes with
  | [] => (m, 0)
  | b :: rest =>
      match m !! to with
      | Some _ => put_user_bytes (to + 1) rest (<[to := b]> m)
      | None => (m, Z.of_nat (length bytes))
      end
  end.

(** Bytes are fetched from user memory in address order until the first
    inaccessible byte; the result is the bytes fetched and the number of
    bytes that could not be fetched. *)
Fixpoint get_user_bytes (from : Z) (n : nat) (m : gmap Z Z) : list Z * Z :=
  match n with
  | O => ([], 0)
  | S n' =>
      match m !! from with
      | Some b =>
          let '(bs, uncopied) := get_user_bytes (from + 1) n' m in
          (b :: bs, uncopied)
      | None => ([], Z.of_nat n)
      end
  end.

(** [copy_to_user(to, from, n)] returns the number of bytes that could not
    be copied; [bytes] is the content of the kernel buffer [from]. *)
Definition copy_to_user (to : Z) (bytes : list Z) : kernel Z := fun w =>
  let '(m, uncopied) := put_user_bytes to bytes (umem w) in
  Ret uncopied (log_event (EvCopyToUser to (Z.of_nat (length bytes)) uncopied)
              (set_umem (fun _ => m) w)).

(** [copy_from_user(to, from, n)] returns the bytes fetched into the kernel
    buffer and the number of bytes that could not be copied. *)
Definition copy_from_user (from : Z) (n : nat) : kernel (list Z * Z) := fun w =>
  let '(bs, uncopied) := get_user_bytes from n (umem w) in
  Ret (bs, uncopied) (log_event (EvCopyFromUser from (Z.of_nat n) uncopied) w).

(** Access to a member of the private struct behind a kernel pointer. *)
Definition load_priv (priv : Z) : kernel simple_private := fun w =>
  match kmem w !! priv with
  | Some s => Ret s w
  | None => Oops w
  end.

Definition store_priv (priv : Z) (f : simple_private -> simple_private)
    : kernel unit := fun w =>
  match kmem w !! priv with
  | Some s => Ret tt (set_kmem (<[priv := f s]>) w)
  | None => Oops w
  end.

Definition dev_err (msg : string) : kernel unit := fun w =>
  Ret tt (log_event (EvDevErr msg) w).

(** ** The file operations of the driver *)

Section FileOperations.

(** Signedness of plain [char] on the target. *)
Variable char_signed : bool.

Definition simplemisc_open (inode : Z) (filp : file) : kernel Z := ret 0.

Definition simplemisc_release (inode : Z) (filp : file) : kernel Z := ret 0.

Definition simplemisc_read (filp : file) (buf : Z) (count : Z) : kernel Z :=
  let priv := miscdev_to_simple (private_data filp) in
  if count =? 0 then ret 0
  else
    s <- load_priv priv ;;
    v <- ioread8 (addr s) ;;
    let data := char_of_u8 char_signed v in
    uncopied <- copy_to_user buf [u8_of_char data] ;;
    if uncopied =? 1 then ret 0 else ret 1.

Definition simplemisc_write (filp : file) (buf : Z) (count : Z) : kernel Z :=
  let priv := miscdev_to_simple (private_data filp) in
  if count =? 0 then ret 0
  else
    r <- copy_from_user buf 1 ;;
    if snd r =? 1 then ret 0
    else
      let data := char_of_u8 char_signed (nth 0 (fst r) 0) in
      s <- load_priv priv ;;
      iowrite8 (u8_of_char data) (addr s) ;;
      ret 1.

End FileOperations.

(** The callback table [simple_fops] (the [.owner] member has no run-time
    behaviour of its own). *)
Record file_operations : Type := {
  fop_open : Z -> file -> kernel Z;
  fop_release : Z -> file -> kernel Z;
  fop_read : file -> Z -> Z -> kernel Z;
  fop_write : file -> Z -> Z -> kernel Z }.

Definition simple_fops (char_signed : bool) : file_operations :=
  {| fop_open := simplemisc_open;
     fop_release := simplemisc_release;
     fop_read := simplemisc_read char_signed;
     fop_write := simplemisc_write char_signed |}.

(** ** Kernel services used at bind and unbind time *)

(** What the kernel answers to the services [simple_probe] calls during one
    bind attempt.  [ioremap_result] may be any pointer value, so that every
    test the driver makes on it can be exercised; the kernel itself reports
    a mapping failure as an [ERR_PTR] value. *)
Record kernel_answers : Type := {
  kzalloc_result : Z;         (* devm_kzalloc: the new struct, or NULL *)
  ioremap_result : Z;         (* devm_ioremap_resource: the mapped address *)
  register_byte : Z;          (* what the device register holds when mapped *)
  misc_register_result : Z }. (* misc_register: 0 or a negative errno *)

Definition zeroed_private : simple_private :=
  {| miscdev := {| minor := 0; name := None; fops := None |}; addr := NULL |}.

(** [devm_kzalloc]: a zeroed struct owned by the device, or NULL. *)
Definition devm_kzalloc (k : kernel_answers) : kernel Z := fun w =>
  let p := kzalloc_result k in
  if p =? NULL then Ret NULL (log_event (EvKzalloc NULL) w)
  else Ret p (log_event (EvKzalloc p)
                (set_devres (fun l => l ++ [DevresMem p])
                   (set_kmem (<[p := zeroed_private]>) w))).

Definition IORESOURCE_TYPE_BITS : Z := 7936.

Definition resource_type (r : resource) : Z :=
  Z.land (res_flags r) IORESOURCE_TYPE_BITS.

(** [platform_get_resource]: the [num]-th resource of the given type, or
    NULL when the device has none. *)
Fixpoint get_resource (rs : list resource) (type : Z) (num : nat)
    : option resource :=
  match rs with
  | [] => None
  | r :: rest =>
      if resource_type r =? type then
        match num with
        | O => Some r
        | S num' => get_resource rest type num'
        end
      else get_resource rest type num
  end.

Definition platform_get_resource (pdev : platform_device) (type : Z)
    (num : nat) : option resource :=
  get_resource (pdev_resources pdev) type num.

(** The pointer [devm_ioremap_resource] hands back: a missing or non-memory
    resource is answered with [ERR_PTR(-EINVAL)], any other request with the
    kernel's answer. *)
Definition ioremap_answer (k : kernel_answers) (res : option resource) : Z :=
  match res with
  | None => ERR_PTR (- EINVAL)
  | Some r => if resource_type r =? IORESOURCE_MEM
              then ioremap_result k else ERR_PTR (- EINVAL)
  end.

(** [devm_ioremap_resource]: requests and maps the resource.  When the
    pointer handed back is a usable address, the mapping is recorded as a
    managed resource of the device. *)
Definition devm_ioremap_resource (k : kernel_answers) (res : option resource)
    : kernel Z := fun w =>
  let p := ioremap_answer k res in
  if (p =? NULL) || IS_ERR p then Ret p (log_event (EvIoremapResource p) w)
  else Ret p (log_event (EvIoremapResource p)
                (set_devres (fun l => l ++ [DevresIomap p])
                   (set_iomem (<[p := register_byte k]>) w))).

Definition platform_set_drvdata (pdev : platform_device) (data : Z)
    : kernel unit := fun w =>
  Ret tt (log_event (EvSetDrvdata data) (set_drvdata data w)).

Definition platform_get_drvdata (pdev : platform_device) : kernel Z := fun w =>
  Ret (drvdata w) w.

(** [misc_register]: on success (answer 0) the device joins the list of
    registered misc devices; the answer is returned as it is. *)
Definition misc_register (k : kernel_answers) (misc : Z) : kernel Z := fun w =>
  match kmem w !! miscdev_to_simple misc with
  | None => Oops w
  | Some _ =>
      let r := misc_register_result k in
      Ret r (log_event (EvMiscRegister misc r)
               (if r =? 0 then set_misc_list (fun l => misc :: l) w else w))
  end.

(** [misc_deregister]: the device leaves the list of registered misc
    devices; it returns nothing.  It reads the [miscdevice] it is given, so
    a pointer to no live struct faults. *)
Definition misc_deregister (misc : Z) : kernel unit := fun w =>
  match kmem w !! miscdev_to_simple misc with
  | None => Oops w
  | Some _ =>
      Ret tt (log_event (EvMiscDeregister misc)
                (set_misc_list (filter (fun m => m <> misc)) w))
  end.

(** Member updates of the private struct. *)
Definition set_addr (a : Z) (s : simple_private) : simple_private :=
  {| miscdev := miscdev s; addr := a |}.

Definition set_minor (n : Z) (s : simple_private) : simple_private :=
  {| miscdev := {| minor := n; name := name (miscdev s);
                   fops := fops (miscdev s) |};
     addr := addr s |}.

Definition set_name (n : string) (s : simple_private) : simple_private :=
  {| miscdev := {| minor := minor (miscdev s); name := Some n;
                   fops := fops (miscdev s) |};
     addr := addr s |}.

Definition set_fops (f : fops_ref) (s : simple_private) : simple_private :=
  {| miscdev := {| minor := minor (miscdev s); name := name (miscdev s);
                   fops := Some f |};
     addr := addr s |}.

(** ** Bind and unbind *)

Definition simple_probe (k : kernel_answers) (pdev : platform_device)
    : kernel Z :=
  priv <- devm_kzalloc k ;;
  if priv =? NULL then
    dev_err "Could not allocate private struct!" ;;
    ret (- ENOMEM)
  else
    a <- devm_ioremap_resource k
           (platform_get_resource pdev IORESOURCE_MEM 0) ;;
    store_priv priv (set_addr a) ;;
    s <- load_priv priv ;;
    if addr s =? NULL then
      dev_err "Could not map physical memory!" ;;
      ret (- ENOMEM)
    else
      store_priv priv (set_minor MISC_DYNAMIC_MINOR) ;;
      store_priv priv (set_name DRIVER_NAME) ;;
      store_priv priv (set_fops simple_fops_ref) ;;
      platform_set_drvdata pdev priv ;;
      misc_register k (miscdev_of_simple priv).

Definition simple_remove (pdev : platform_device) : kernel Z :=
  priv <- platform_get_drvdata pdev ;;
  misc_deregister (miscdev_of_simple priv) ;;
  ret 0.

(** The compatibility table [simple_ids]. *)
Definition simple_ids : list string := ["xlnx,interrupt-demo-1.0"%string].

(** ** The driver core around [simple_probe] and [simple_remove]

    The comments of [simple_probe] and [simple_remove] rely on the devm
    contract: what was acquired through a [devm_] service is released by the
    kernel after [remove] has returned (and after a [probe] that returned an
    error), newest first. *)

Definition release_entry (e : devres_entry) (w : world) : world :=
  log_event (EvDevresRelease e)
    match e with
    | DevresMem p => set_kmem (delete p) w
    | DevresIomap va => set_iomem (delete va) w
    end.

Definition devres_release_all : kernel unit := fun w =>
  Ret tt (set_devres (fun _ => [])
            (fold_left (fun w' e => release_entry e w') (rev (devres w)) w)).

Definition really_probe (k : kernel_answers) (pdev : platform_device)
    : kernel Z :=
  r <- simple_probe k pdev ;;
  if r =? 0 then ret 0
  else
    devres_release_all ;;
    platform_set_drvdata pdev NULL ;;
    ret r.

Definition device_release_driver (pdev : platform_device) : kernel Z :=
  r <- simple_remove pdev ;;
  devres_release_all ;;
  platform_set_drvdata pdev NULL ;;
  ret r.

(** ** Observations on worlds and traces *)

(** The endpoint behind [misc] is published. *)
Definition published (misc : Z) (w : world) : bool :=
  bool_decide (misc ∈ misc_list w).

(** The byte at virtual address [a] is mapped. *)
Definition mapped (a : Z) (w : world) : bool :=
  bool_decide (is_Some (iomem w !! a)).

Definition is_hw_access (e : event) : bool :=
  match e with
  | EvIoread8 _ _ | EvIowrite8 _ _ => true
  | _ => false
  end.

(** Number of register accesses in a trace. *)
Definition hw_accesses (t : list event) : nat :=
  length (List.filter is_hw_access t).

(** ** A concrete platform: one register window at 0x1000, four bytes long *)

Definition demo_pdev : platform_device :=
  {| pdev_resources :=
       [ {| res_start := 4096; res_end := 4099;
            res_flags := IORESOURCE_MEM |} ] |}.

(** Before any bind: nothing allocated, mapped or published; user memory
    has the byte 0xAB at address 100 and a zero byte at address 200. *)
Definition demo_unbound : world :=
  {| iomem := ∅; umem := {[ 100 := 171; 200 := 0 ]}; kmem := ∅;
     drvdata := NULL; misc_list := []; devres := []; trace := [] |}.

Definition demo_answers : kernel_answers :=
  {| kzalloc_result := 3000; ioremap_result := 5000; register_byte := 7;
     misc_register_result := 0 |}.

Definition demo_private : simple_private :=
  {| miscdev := {| minor := MISC_DYNAMIC_MINOR; name := Some DRIVER_NAME;
                   fops := Some simple_fops_ref |};
     addr := 5000 |}.

(** The world a successful bind of [demo_pdev] leaves behind. *)
Definition demo_bound : world :=
  {| iomem := {[ 5000 := 7 ]}; umem := {[ 100 := 171; 200 := 0 ]};
     kmem := {[ 3000 := demo_private ]};
     drvdata := 3000; misc_list := [3000];
     devres := [DevresMem 3000; DevresIomap 5000];
     trace := [EvKzalloc 3000; EvIoremapResource 5000; EvSetDrvdata 3000;
               EvMiscRegister 3000 0] |}.

Definition demo_file : file := {| private_data := 3000 |}.

(** A platform device whose description has no memory resource. *)
Definition bare_pdev : platform_device := {| pdev_resources := [] |}.

(** Bind attempts that meet a failure: the allocator is out of memory; the
    register window is already claimed, which [devm_ioremap_resource]
    reports as [ERR_PTR(-EBUSY)]; the mapper hands back a null pointer; the
    misc subsystem is out of memory. *)
Definition alloc_failure_answers : kernel_answers :=
  {| kzalloc_result := NULL; ioremap_result := 5000; register_byte := 7;
     misc_register_result := 0 |}.

Definition busy_answers : kernel_answers :=
  {| kzalloc_result := 3000; ioremap_result := ERR_PTR (- EBUSY);
     register_byte := 7; misc_register_result := 0 |}.

Definition null_mapping_answers : kernel_answers :=
  {| kzalloc_result := 3000; ioremap_result := NULL; register_byte := 7;
     misc_register_result := 0 |}.

Definition register_failure_answers : kernel_answers :=
  {| kzalloc_result := 3000; ioremap_result := 5000; register_byte := 7;
     misc_register_result := - ENOMEM |}.

(** A second set of answers, for a bind attempt on an already bound
    device. *)
Definition rebind_answers : kernel_answers :=
  {| kzalloc_result := 3100; ioremap_result := 5100; register_byte := 9;
     misc_register_result := 0 |}.

(** ** Further observations *)

(** The world an outcome ends in, whether a return or a fault. *)
Definition outcome_world {A} (o : outcome A) : world :=
  match o with
  | Ret _ w => w
  | Oops w => w
  end.

(** The private struct as [simple_probe] has filled it in when it gets to
    [misc_register]: the three members of [miscdev] set at lines 147-149
    and the address stored at line 137. *)
Definition bound_private (a : Z) : simple_private :=
  {| miscdev := {| minor := MISC_DYNAMIC_MINOR; name := Some DRIVER_NAME;
                   fops := Some simple_fops_ref |};
     addr := a |}.

(** The file the kernel hands to the callbacks of a misc device: its
    [private_data] is the registered [struct miscdevice] (comment of
    [simplemisc_read], lines 82-85). *)
Definition file_of_miscdev (misc : Z) : file := {| private_data := misc |}.

(** * Properties *)

(** ** Basic facts *)

Lemma bind_Ret {A B} (m : kernel A) (k : A -> kernel B) w a w' :
  m w = Ret a w' -> bind m k w = k a w'.
Proof. intros H. unfold bind. now rewrite H. Qed.

Lemma bind_Oops {A B} (m : kernel A) (k : A -> kernel B) w w' :
  m w = Oops w' -> bind m k w = Oops w'.
Proof. intros H. unfold bind. now rewrite H. Qed.

Lemma miscdev_to_simple_of_simple p :
  miscdev_to_simple (miscdev_of_simple p) = p.
Proof. unfold miscdev_to_simple, miscdev_of_simple, offsetof_miscdev. lia. Qed.

(** A byte survives the trip through a [char] object, whatever the
    signedness of [char]. *)
Lemma u8_of_char_of_u8 cs v : 0 <= v < 256 -> u8_of_char (char_of_u8 cs v) = v.
Proof.
  intros Hv. unfold u8_of_char, char_of_u8.
  destruct cs; simpl.
  - destruct (Z.leb_spec 128 v).
    + replace (v - 256) with (v + (-1) * 256) by lia.
      rewrite Z_mod_plus_full. apply Z.mod_small. lia.
    + apply Z.mod_small. lia.
  - apply Z.mod_small. lia.
Qed.

Lemma hw_accesses_app t1 t2 :
  hw_accesses (t1 ++ t2) = (hw_accesses t1 + hw_accesses t2)%nat.
Proof. unfold hw_accesses. now rewrite List.filter_app, length_app. Qed.

Lemma demo_probe_binds :
  simple_probe demo_answers demo_pdev demo_unbound = Ret 0 demo_bound.
Proof. vm_compute. reflexivity. Qed.

(** ** Exact behaviour of the four paths of read and write *)

Section ReadWritePaths.

Variable cs : bool.
Variables (filp : file) (count : Z) (w : world).
Hypothesis Hcount : 0 < count.

Let priv := miscdev_to_simple (private_data filp).

(** A read whose copy to user space succeeds. *)
Lemma simplemisc_read_copied s v buf :
  kmem w !! priv = Some s ->
  iomem w !! addr s = Some v ->
  is_Some (umem w !! buf) ->
  simplemisc_read cs filp buf count w =
    Ret 1 (log_event (EvCopyToUser buf 1 0)
             (set_umem
                (fun _ => <[buf := u8_of_char (char_of_u8 cs v)]> (umem w))
                (log_event (EvIoread8 (addr s) v) w))).
Proof.
  intros Hs Hv [b Hb]. unfold simplemisc_read. fold priv.
  destruct (Z.eqb_spec count 0) as [?|_]; [lia|].
  rewrite (bind_Ret _ _ w s w) by (unfold load_priv; now rewrite Hs).
  erewrite bind_Ret by (unfold ioread8; now rewrite Hv).
  unfold bind, copy_to_user. cbn. rewrite Hb. reflexivity.
Qed.

(** A read whose copy to user space fails. *)
Lemma simplemisc_read_uncopied s v buf :
  kmem w !! priv = Some s ->
  iomem w !! addr s = Some v ->
  umem w !! buf = None ->
  simplemisc_read cs filp buf count w =
    Ret 0 (log_event (EvCopyToUser buf 1 1)
             (set_umem (fun _ => umem w)
                (log_event (EvIoread8 (addr s) v) w))).
Proof.
  intros Hs Hv Hb. unfold simplemisc_read. fold priv.
  destruct (Z.eqb_spec count 0) as [?|_]; [lia|].
  rewrite (bind_Ret _ _ w s w) by (unfold load_priv; now rewrite Hs).
  erewrite bind_Ret by (unfold ioread8; now rewrite Hv).
  unfold bind, copy_to_user. cbn. rewrite Hb. reflexivity.
Qed.

(** A write whose copy from user space succeeds. *)
Lemma simplemisc_write_copied s v0 b buf :
  kmem w !! priv = Some s ->
  iomem w !! addr s = Some v0 ->
  umem w !! buf = Some b ->
  simplemisc_write cs filp buf count w =
    Ret 1 (log_event (EvIowrite8 (u8_of_char (char_of_u8 cs b)) (addr s))
             (set_iomem (<[addr s := u8_of_char (char_of_u8 cs b)]>)
                (log_event (EvCopyFromUser buf 1 0) w))).
Proof.
  intros Hs Hv Hb. unfold simplemisc_write. fold priv.
  destruct (Z.eqb_spec count 0) as [?|_]; [lia|].
  unfold bind, copy_from_user. cbn. rewrite Hb. cbn.
  unfold load_priv. cbn. rewrite Hs.
  unfold iowrite8. cbn. rewrite Hv. reflexivity.
Qed.

(** A write whose copy from user space fails: the private struct is not
    even looked at. *)
Lemma simplemisc_write_uncopied buf :
  umem w !! buf = None ->
  simplemisc_write cs filp buf count w =
    Ret 0 (log_event (EvCopyFromUser buf 1 1) w).
Proof.
  intros Hb. unfold simplemisc_write.
  destruct (Z.eqb_spec count 0) as [?|_]; [lia|].
  unfold bind, copy_from_user. cbn. rewrite Hb. reflexivity.
Qed.

End ReadWritePaths.

(** ** Transfer-size and transfer-failure policy of read and write *)

(** C1: a read or write request of length 0 returns 0 and hands back the
    world it was given: nothing is appended to the trace, so no load from
    and no store to the register happens and no user/kernel copy is made. *)
Theorem zero_length_request_is_noop cs filp buf w :
  simplemisc_read cs filp buf 0 w = Ret 0 w /\
  simplemisc_write cs filp buf 0 w = Ret 0 w.
Proof. split; reflexivity. Qed.

(** C2: on a bound instance, a read or write request of any positive length
    whose user/kernel copy succeeds makes exactly one byte-wide access to
    the mapped register and returns 1. *)
Theorem positive_length_request_moves_one_byte
    cs filp count w s v bufr bufw b :
  0 < count ->
  kmem w !! miscdev_to_simple (private_data filp) = Some s ->
  iomem w !! addr s = Some v ->
  is_Some (umem w !! bufr) ->
  umem w !! bufw = Some b ->
  (exists w',
      simplemisc_read cs filp bufr count w = Ret 1 w' /\
      trace w' = trace w ++ [EvIoread8 (addr s) v; EvCopyToUser bufr 1 0] /\
      hw_accesses (trace w') = S (hw_accesses (trace w))) /\
  (exists w',
      simplemisc_write cs filp bufw count w = Ret 1 w' /\
      trace w' = trace w ++
                   [EvCopyFromUser bufw 1 0;
                    EvIowrite8 (u8_of_char (char_of_u8 cs b)) (addr s)] /\
      hw_accesses (trace w') = S (hw_accesses (trace w))).
Proof.
  intros Hcount Hs Hv Hr Hw. split.
  - eexists. split.
    { exact (simplemisc_read_copied cs filp count w Hcount s v bufr Hs Hv Hr). }
    cbn [trace log_event set_umem set_iomem]. rewrite <- app_assoc.
    split; [reflexivity|].
    rewrite hw_accesses_app. cbn. lia.
  - eexists. split.
    { exact (simplemisc_write_copied cs filp count w Hcount s v b bufw
               Hs Hv Hw). }
    cbn [trace log_event set_umem set_iomem]. rewrite <- app_assoc.
    split; [reflexivity|].
    rewrite hw_accesses_app. cbn. lia.
Qed.

(** C3: a read (on a bound instance) or a write of positive length whose
    user/kernel copy fails returns 0, not a negative error code. *)
Theorem failed_copy_reports_zero_bytes cs filp count w s v buf :
  0 < count ->
  kmem w !! miscdev_to_simple (private_data filp) = Some s ->
  iomem w !! addr s = Some v ->
  umem w !! buf = None ->
  (exists w', simplemisc_read cs filp buf count w = Ret 0 w') /\
  (exists w', simplemisc_write cs filp buf count w = Ret 0 w').
Proof.
  intros Hcount Hs Hv Hb. split; eexists.
  - exact (simplemisc_read_uncopied cs filp count w Hcount s v buf Hs Hv Hb).
  - exact (simplemisc_write_uncopied cs filp count w Hcount buf Hb).
Qed.

(** C4: with the register a plain memory byte, a successful write of the
    byte [v] followed by a read on the same instance hands [v] back to the
    reader. *)
Theorem write_then_read_returns_written_byte
    cs filp count count' w s v0 v bufw bufr :
  0 < count -> 0 < count' ->
  0 <= v < 256 ->
  kmem w !! miscdev_to_simple (private_data filp) = Some s ->
  iomem w !! addr s = Some v0 ->
  umem w !! bufw = Some v ->
  is_Some (umem w !! bufr) ->
  exists w1 w2,
    simplemisc_write cs filp bufw count w = Ret 1 w1 /\
    iomem w1 !! addr s = Some v /\
    simplemisc_read cs filp bufr count' w1 = Ret 1 w2 /\
    umem w2 !! bufr = Some v.
Proof.
  intros Hcount Hcount' Hv Hs Hv0 Hw Hr.
  pose proof (simplemisc_write_copied cs filp count w Hcount s v0 v bufw
                Hs Hv0 Hw) as Hwrite.
  rewrite (u8_of_char_of_u8 cs v Hv) in Hwrite.
  eexists. eexists. split; [exact Hwrite|].
  split; [cbn; apply lookup_insert_eq|].
  split.
  - apply simplemisc_read_copied with (s := s) (v := v);
      [exact Hcount'|exact Hs|cbn; apply lookup_insert_eq|exact Hr].
  - cbn. rewrite (u8_of_char_of_u8 cs v Hv). apply lookup_insert_eq.
Qed.

(** C9: a write of positive length whose copy from user space fails makes
    no store to the register: it returns 0, the mapped memory is what it
    was, and the only service invoked is the failed copy. *)
Theorem failed_write_leaves_register_unchanged cs filp count w buf :
  0 < count ->
  umem w !! buf = None ->
  exists w',
    simplemisc_write cs filp buf count w = Ret 0 w' /\
    iomem w' = iomem w /\
    trace w' = trace w ++ [EvCopyFromUser buf 1 1] /\
    hw_accesses (trace w') = hw_accesses (trace w).
Proof.
  intros Hcount Hb. eexists.
  split; [exact (simplemisc_write_uncopied cs filp count w Hcount buf Hb)|].
  cbn [trace iomem log_event]. repeat split.
  rewrite hw_accesses_app. cbn. lia.
Qed.

(** C10: a read of positive length on a bound instance loads from the
    register first and attempts the copy to user space second; when that
    copy fails the read returns 0 and has still made exactly one register
    access. *)
Theorem read_loads_register_before_copy cs filp count w s v buf :
  0 < count ->
  kmem w !! miscdev_to_simple (private_data filp) = Some s ->
  iomem w !! addr s = Some v ->
  exists r u w',
    simplemisc_read cs filp buf count w = Ret r w' /\
    trace w' = trace w ++ [EvIoread8 (addr s) v; EvCopyToUser buf 1 u] /\
    (umem w !! buf = None ->
     r = 0 /\ hw_accesses (trace w') = S (hw_accesses (trace w))).
Proof.
  intros Hcount Hs Hv. destruct (umem w !! buf) as [b|] eqn:Hb.
  - eexists. eexists. eexists.
    split; [exact (simplemisc_read_copied cs filp count w Hcount s v buf Hs Hv
                    (ex_intro _ b Hb))|].
    cbn [trace log_event set_umem set_iomem]. rewrite <- app_assoc.
    split; [reflexivity|discriminate].
  - eexists. eexists. eexists.
    split.
    { exact (simplemisc_read_uncopied cs filp count w Hcount s v buf
               Hs Hv Hb). }
    cbn [trace log_event set_umem set_iomem]. rewrite <- app_assoc.
    split; [reflexivity|].
    intros _. split; [reflexivity|].
    rewrite hw_accesses_app. cbn. lia.
Qed.

(** ** Exact behaviour of the paths of bind and unbind *)

(** Symbolic execution of the stores and loads on the private struct. *)
Ltac probe_steps :=
  repeat first
    [ rewrite lookup_insert_eq
    | rewrite miscdev_to_simple_of_simple
    | match goal with H : (_ =? _) = _ |- _ => rewrite H end
    | progress cbn [kmem misc_list drvdata iomem devres trace
                    log_event set_devres set_kmem set_iomem set_drvdata
                    set_misc_list addr set_addr set_minor set_name set_fops
                    dev_err ret fmap option_fmap option_map
                    Z.eqb NULL orb] ].

Section ProbePaths.

Variables (k : kernel_answers) (pdev : platform_device) (w : world).

Let p := kzalloc_result k.
Let a := ioremap_answer k (platform_get_resource pdev IORESOURCE_MEM 0).

(** The allocation fails: first error exit. *)
Lemma simple_probe_alloc_failed :
  p = NULL ->
  simple_probe k pdev w =
    Ret (- ENOMEM)
      (log_event (EvDevErr "Could not allocate private struct!")
         (log_event (EvKzalloc NULL) w)).
Proof.
  intros Hp. unfold simple_probe, bind, devm_kzalloc. fold p.
  rewrite Hp. reflexivity.
Qed.

(** The mapper hands back a null pointer: second error exit.  Nothing is
    published and the driver data is not set. *)
Lemma simple_probe_null_mapping :
  p <> NULL -> a = NULL ->
  exists w',
    simple_probe k pdev w = Ret (- ENOMEM) w' /\
    misc_list w' = misc_list w /\
    drvdata w' = drvdata w /\
    iomem w' = iomem w /\
    devres w' = devres w ++ [DevresMem p] /\
    trace w' = trace w ++ [EvKzalloc p; EvIoremapResource NULL;
                           EvDevErr "Could not map physical memory!"].
Proof.
  intros Hp Ha. apply Z.eqb_neq in Hp.
  unfold simple_probe, bind, devm_kzalloc, devm_ioremap_resource,
    store_priv, load_priv.
  fold p a. rewrite Hp, Ha. probe_steps.
  eexists. split; [reflexivity|]. probe_steps.
  rewrite <- !app_assoc. repeat split.
Qed.

(** Any other pointer from the mapper, an [ERR_PTR] value included, takes
    the driver to the registration of the misc device, whose answer is
    the result of the bind. *)
Lemma simple_probe_nonnull_mapping :
  p <> NULL -> a <> NULL ->
  exists w',
    simple_probe k pdev w = Ret (misc_register_result k) w' /\
    misc_list w' = (if misc_register_result k =? 0
                    then miscdev_of_simple p :: misc_list w
                    else misc_list w) /\
    drvdata w' = p /\
    addr <$> kmem w' !! p = Some a /\
    iomem w' = (if IS_ERR a then iomem w
                else <[a := register_byte k]> (iomem w)) /\
    trace w' = trace w ++ [EvKzalloc p; EvIoremapResource a;
                           EvSetDrvdata p;
                           EvMiscRegister (miscdev_of_simple p)
                             (misc_register_result k)].
Proof.
  intros Hp Ha. apply Z.eqb_neq in Hp, Ha.
  unfold simple_probe, bind, devm_kzalloc, devm_ioremap_resource,
    store_priv, load_priv, platform_set_drvdata, misc_register.
  fold p a. rewrite Hp, Ha. cbn [orb].
  destruct (IS_ERR a); probe_steps;
    (eexists; split; [reflexivity|]);
    destruct (misc_register_result k =? 0); probe_steps;
    rewrite <- !app_assoc; repeat split.
Qed.

End ProbePaths.

(** An [ERR_PTR] value is not the null pointer. *)
Lemma IS_ERR_not_NULL q : IS_ERR q = true -> q <> NULL.
Proof.
  unfold IS_ERR, NULL, MAX_ERRNO, BITS_PER_LONG. intros H ->.
  vm_compute in H. discriminate.
Qed.

Lemma release_entries_trace l w :
  trace (fold_left (fun w' e => release_entry e w') l w) =
  trace w ++ map EvDevresRelease l.
Proof.
  revert w. induction l as [|e l IH]; intros w; cbn [fold_left map].
  - now rewrite app_nil_r.
  - rewrite IH. unfold release_entry.
    destruct e; cbn [trace log_event set_kmem set_iomem];
      now rewrite <- app_assoc.
Qed.

Lemma simple_remove_bound pdev w s :
  kmem w !! drvdata w = Some s ->
  simple_remove pdev w =
    Ret 0 (log_event (EvMiscDeregister (miscdev_of_simple (drvdata w)))
             (set_misc_list
                (filter (fun m => m <> miscdev_of_simple (drvdata w))) w)).
Proof.
  intros Hs. unfold simple_remove, bind, platform_get_drvdata, misc_deregister.
  rewrite miscdev_to_simple_of_simple, Hs. reflexivity.
Qed.

(** A bind attempt whose mapping is answered with an [ERR_PTR] value, with
    the allocation and the registration succeeding, ends in success with
    the endpoint published and nothing mapped. *)
Lemma simple_probe_err_ptr_mapping k pdev w :
  kzalloc_result k <> NULL ->
  IS_ERR (ioremap_answer k (platform_get_resource pdev IORESOURCE_MEM 0))
    = true ->
  misc_register_result k = 0 ->
  exists w',
    simple_probe k pdev w = Ret 0 w' /\
    published (miscdev_of_simple (kzalloc_result k)) w' = true /\
    iomem w' = iomem w.
Proof.
  intros Hp Herr Hreg.
  destruct (simple_probe_nonnull_mapping k pdev w Hp (IS_ERR_not_NULL _ Herr))
    as (w' & Hrun & Hlist & _ & _ & Hio & _).
  rewrite Hreg in Hrun, Hlist. rewrite Herr in Hio. cbn in Hlist.
  exists w'. split; [exact Hrun|]. split; [|exact Hio].
  unfold published. rewrite Hlist. apply bool_decide_eq_true. left.
Qed.

(** The null-pointer exit of [simple_probe], seen from the driver core:
    the error is handed on and the private struct is released. *)
Example really_probe_null_mapping_unwinds :
  exists w',
    really_probe null_mapping_answers demo_pdev demo_unbound
      = Ret (- ENOMEM) w' /\
    kmem w' = ∅ /\ devres w' = [] /\ misc_list w' = [] /\ drvdata w' = NULL.
Proof. eexists. split; [vm_compute; reflexivity|]. repeat split. Qed.

(** ** Bind *)

(** C5 requires a bind attempt whose mapping fails to return the
    mapping-failure error and to publish no endpoint.  [simple_probe] tests
    the mapped address against NULL only, whereas a failed mapping is
    reported as an [ERR_PTR] value.  Evaluated on a busy register window,
    and on a device without a memory resource, the probe logs no mapping
    error, returns 0, has set the driver data and has published the
    endpoint, with the error pointer stored as the register address and
    nothing mapped there. *)
Theorem probe_publishes_after_failed_mapping :
  (IS_ERR (ioremap_answer busy_answers
             (platform_get_resource demo_pdev IORESOURCE_MEM 0)) = true /\
   exists w',
     simple_probe busy_answers demo_pdev demo_unbound = Ret 0 w' /\
     published (miscdev_of_simple 3000) w' = true /\
     drvdata w' = 3000 /\
     addr <$> kmem w' !! 3000 = Some (ERR_PTR (- EBUSY)) /\
     mapped (ERR_PTR (- EBUSY)) w' = false /\
     trace w' = [EvKzalloc 3000; EvIoremapResource (ERR_PTR (- EBUSY));
                 EvSetDrvdata 3000; EvMiscRegister 3000 0]) /\
  (IS_ERR (ioremap_answer demo_answers
             (platform_get_resource bare_pdev IORESOURCE_MEM 0)) = true /\
   exists w',
     simple_probe demo_answers bare_pdev demo_unbound = Ret 0 w' /\
     published (miscdev_of_simple 3000) w' = true /\
     addr <$> kmem w' !! 3000 = Some (ERR_PTR (- EINVAL)) /\
     mapped (ERR_PTR (- EINVAL)) w' = false).
Proof.
  split; (split; [reflexivity|]); eexists;
    (split; [vm_compute; reflexivity|]); repeat split.
Qed.

(** C6, as stated, fails: distinct failure causes of bind do share a
    returned code.  An allocation failure and a publication failure (the
    misc subsystem answering -ENOMEM) both make [simple_probe] return
    -ENOMEM. *)
Lemma bind_failure_codes_coincide :
  ~ (forall k1 k2 r1 r2 w1 w2,
        (* cause 1: the private state cannot be allocated *)
        kzalloc_result k1 = NULL ->
        (* cause 2: allocation and mapping succeed, publication fails *)
        kzalloc_result k2 <> NULL ->
        ioremap_answer k2 (platform_get_resource demo_pdev IORESOURCE_MEM 0)
          <> NULL ->
        IS_ERR (ioremap_answer k2
                  (platform_get_resource demo_pdev IORESOURCE_MEM 0)) = false ->
        misc_register_result k2 <> 0 ->
        simple_probe k1 demo_pdev demo_unbound = Ret r1 w1 ->
        simple_probe k2 demo_pdev demo_unbound = Ret r2 w2 ->
        r1 <> r2).
Proof.
  intros H.
  refine (H alloc_failure_answers register_failure_answers (- ENOMEM)
            (- ENOMEM) _ _ _ _ _ _ _ _ _ eq_refl);
    try (vm_compute; reflexivity); vm_compute; discriminate.
Qed.

(** C6, amended: every error exit of bind hands a negative code to its
    caller.  An allocation failure and a null mapped address both return
    -ENOMEM and differ in the logged message only; past the mapping test
    the answer of [misc_register] is returned unchanged, so a publication
    failure returns whatever code the misc subsystem gave. *)
Theorem bind_error_exits_return_codes k pdev w :
  (kzalloc_result k = NULL ->
   exists w',
     simple_probe k pdev w = Ret (- ENOMEM) w' /\
     - ENOMEM < 0 /\
     trace w' = trace w ++ [EvKzalloc NULL;
                            EvDevErr "Could not allocate private struct!"]) /\
  (kzalloc_result k <> NULL ->
   ioremap_answer k (platform_get_resource pdev IORESOURCE_MEM 0) = NULL ->
   exists w',
     simple_probe k pdev w = Ret (- ENOMEM) w' /\
     trace w' = trace w ++ [EvKzalloc (kzalloc_result k);
                            EvIoremapResource NULL;
                            EvDevErr "Could not map physical memory!"]) /\
  (kzalloc_result k <> NULL ->
   ioremap_answer k (platform_get_resource pdev IORESOURCE_MEM 0) <> NULL ->
   exists w', simple_probe k pdev w = Ret (misc_register_result k) w').
Proof.
  split; [|split].
  - intros Hp. eexists. split; [now apply simple_probe_alloc_failed|].
    split; [reflexivity|].
    cbn [trace log_event]. now rewrite <- app_assoc.
  - intros Hp Ha.
    destruct (simple_probe_null_mapping k pdev w Hp Ha)
      as (w' & Hrun & _ & _ & _ & _ & Htrace).
    now exists w'.
  - intros Hp Ha.
    destruct (simple_probe_nonnull_mapping k pdev w Hp Ha) as (w' & Hrun & _).
    now exists w'.
Qed.

(** ** Unbind *)

(** C7: unbinding a bound instance deregisters the endpoint before the
    mapping is released.  When [simple_remove] returns, the endpoint is no
    longer published while the mapped memory and the managed resources are
    those it started with; in the whole unbind the deregistration comes
    before every release of a managed resource. *)
Theorem unbind_unpublishes_before_releasing_mapping pdev w s :
  kmem w !! drvdata w = Some s ->
  exists w1 w2,
    simple_remove pdev w = Ret 0 w1 /\
    published (miscdev_of_simple (drvdata w)) w1 = false /\
    iomem w1 = iomem w /\
    devres w1 = devres w /\
    trace w1 = trace w ++ [EvMiscDeregister (miscdev_of_simple (drvdata w))] /\
    device_release_driver pdev w = Ret 0 w2 /\
    trace w2 = trace w ++
                 EvMiscDeregister (miscdev_of_simple (drvdata w))
                 :: map EvDevresRelease (rev (devres w))
                 ++ [EvSetDrvdata NULL].
Proof.
  intros Hs. pose proof (simple_remove_bound pdev w s Hs) as Hrm.
  eexists. eexists. split; [exact Hrm|].
  split.
  { unfold published. apply bool_decide_eq_false.
    cbn [misc_list log_event set_misc_list].
    rewrite list_elem_of_filter. tauto. }
  do 3 (split; [reflexivity|]).
  unfold device_release_driver.
  rewrite (bind_Ret _ _ _ _ _ Hrm).
  unfold bind, devres_release_all, platform_set_drvdata, ret.
  split; [reflexivity|].
  cbn [trace log_event set_drvdata set_devres devres set_misc_list].
  rewrite release_entries_trace. cbn [trace log_event set_misc_list].
  now rewrite <- !app_assoc.
Qed.

(** C8, as stated, fails: [simple_remove] on a unit that was never bound is
    not rejected with an error code that leaves the world as it was. *)
Lemma remove_of_unbound_unit_is_not_rejected :
  ~ (exists e, e < 0 /\
       simple_remove demo_pdev demo_unbound = Ret e demo_unbound).
Proof. intros (e & _ & H). vm_compute in H. discriminate. Qed.

(** C8, amended: [simple_remove] has no rejection path.  Whenever it
    returns, it returns 0; on a bound instance it does return, with the
    endpoint deregistered. *)
Theorem remove_never_returns_an_error pdev w :
  (forall r w', simple_remove pdev w = Ret r w' -> r = 0) /\
  (forall s,
      kmem w !! drvdata w = Some s ->
      exists w',
        simple_remove pdev w = Ret 0 w' /\
        published (miscdev_of_simple (drvdata w)) w' = false).
Proof.
  split.
  - intros r w'.
    unfold simple_remove, bind, platform_get_drvdata, misc_deregister, ret.
    destruct (kmem w !! _); intros H; now inversion H.
  - intros s Hs. eexists. split; [exact (simple_remove_bound pdev w s Hs)|].
    unfold published. apply bool_decide_eq_false.
    cbn [misc_list log_event set_misc_list].
    rewrite list_elem_of_filter. tauto.
Qed.

(** ** The properties at work on the demo platform *)

Lemma positive_length_request_demo :
  0 < 5 /\
  (exists w', simplemisc_read true demo_file 200 5 demo_bound = Ret 1 w') /\
  (exists w', simplemisc_write true demo_file 100 5 demo_bound = Ret 1 w').
Proof.
  destruct (positive_length_request_moves_one_byte
              true demo_file 5 demo_bound demo_private 7 200 100 171)
    as [(w1 & H1 & _) (w2 & H2 & _)];
    [lia | reflexivity | reflexivity | eexists; reflexivity | reflexivity |].
  split; [lia|]. split; eexists; eassumption.
Defined.

Lemma failed_copy_demo :
  umem demo_bound !! 300 = None /\
  (exists w', simplemisc_read false demo_file 300 2 demo_bound = Ret 0 w') /\
  (exists w', simplemisc_write false demo_file 300 2 demo_bound = Ret 0 w').
Proof.
  split; [reflexivity|].
  apply (failed_copy_reports_zero_bytes
           false demo_file 2 demo_bound demo_private 7 300);
    [lia | reflexivity | reflexivity | reflexivity].
Defined.

Lemma write_then_read_demo :
  exists w1 w2,
    simplemisc_write true demo_file 100 1 demo_bound = Ret 1 w1 /\
    iomem w1 !! addr demo_private = Some 171 /\
    simplemisc_read true demo_file 200 1 w1 = Ret 1 w2 /\
    umem w2 !! 200 = Some 171.
Proof.
  apply (write_then_read_returns_written_byte
           true demo_file 1 1 demo_bound demo_private 7 171 100 200);
    [lia | lia | lia | reflexivity | reflexivity | reflexivity
    | eexists; reflexivity].
Defined.

Lemma failed_write_demo :
  exists w',
    simplemisc_write true demo_file 300 4 demo_bound = Ret 0 w' /\
    iomem w' = iomem demo_bound /\
    trace w' = trace demo_bound ++ [EvCopyFromUser 300 1 1] /\
    hw_accesses (trace w') = hw_accesses (trace demo_bound).
Proof.
  apply (failed_write_leaves_register_unchanged
           true demo_file 4 demo_bound 300);
    [lia | reflexivity].
Defined.

Lemma read_order_demo :
  exists r u w',
    simplemisc_read true demo_file 300 4 demo_bound = Ret r w' /\
    trace w' = trace demo_bound ++ [EvIoread8 (addr demo_private) 7;
                                    EvCopyToUser 300 1 u] /\
    (umem demo_bound !! 300 = None ->
     r = 0 /\ hw_accesses (trace w') = S (hw_accesses (trace demo_bound))).
Proof.
  apply (read_loads_register_before_copy
           true demo_file 4 demo_bound demo_private 7 300);
    [lia | reflexivity | reflexivity].
Defined.

Lemma bind_error_exits_demo :
  (exists w', simple_probe alloc_failure_answers demo_pdev demo_unbound
              = Ret (- ENOMEM) w') /\
  (exists w', simple_probe null_mapping_answers demo_pdev demo_unbound
              = Ret (- ENOMEM) w') /\
  (exists w', simple_probe register_failure_answers demo_pdev demo_unbound
              = Ret (- ENOMEM) w').
Proof.
  split; [|split].
  - destruct (bind_error_exits_return_codes
                alloc_failure_answers demo_pdev demo_unbound)
      as (Halloc & _ & _).
    destruct (Halloc eq_refl) as (w' & Hrun & _). now exists w'.
  - destruct (bind_error_exits_return_codes
                null_mapping_answers demo_pdev demo_unbound)
      as (_ & Hmap & _).
    destruct Hmap as (w' & Hrun & _);
      [vm_compute; discriminate | reflexivity |]. now exists w'.
  - destruct (bind_error_exits_return_codes
                register_failure_answers demo_pdev demo_unbound)
      as (_ & _ & Hreg).
    apply Hreg; vm_compute; discriminate.
Defined.

Lemma unbind_order_demo :
  exists w1 w2,
    simple_remove demo_pdev demo_bound = Ret 0 w1 /\
    published (miscdev_of_simple (drvdata demo_bound)) w1 = false /\
    iomem w1 = iomem demo_bound /\
    devres w1 = devres demo_bound /\
    trace w1 = trace demo_bound ++
                 [EvMiscDeregister (miscdev_of_simple (drvdata demo_bound))] /\
    device_release_driver demo_pdev demo_bound = Ret 0 w2 /\
    trace w2 = trace demo_bound ++
                 EvMiscDeregister (miscdev_of_simple (drvdata demo_bound))
                 :: map EvDevresRelease (rev (devres demo_bound))
                 ++ [EvSetDrvdata NULL].
Proof.
  apply (unbind_unpublishes_before_releasing_mapping
           demo_pdev demo_bound demo_private).
  reflexivity.
Defined.

Lemma remove_of_bound_unit_demo :
  kmem demo_bound !! drvdata demo_bound = Some demo_private /\
  exists w',
    simple_remove demo_pdev demo_bound = Ret 0 w' /\
    published (miscdev_of_simple (drvdata demo_bound)) w' = false.
Proof.
  split; [reflexivity|].
  apply (proj2 (remove_never_returns_an_error demo_pdev demo_bound)
           demo_private).
  reflexivity.
Defined.

(** * Further properties of the file operations *)

Lemma filter_other_than_absent (l : list Z) (x : Z) :
  x ∉ l -> filter (fun m => m <> x) l = l.
Proof.
  induction l as [|y l IH]; intros Hx; [reflexivity|].
  apply not_elem_of_cons in Hx as [Hne Hx].
  rewrite filter_cons_True by congruence. now rewrite IH.
Qed.

(** X1: A positive-length request is served the same way whatever its length,
    faults and failed copies included: [count] is only compared with 0. *)
Theorem request_length_is_irrelevant cs filp buf count count' w :
  count <> 0 -> count' <> 0 ->
  simplemisc_read cs filp buf count w = simplemisc_read cs filp buf count' w /\
  simplemisc_write cs filp buf count w = simplemisc_write cs filp buf count' w.
Proof.
  intros Hc Hc'. apply Z.eqb_neq in Hc, Hc'.
  unfold simplemisc_read, simplemisc_write. now rewrite Hc, Hc'.
Qed.

(** X2: A read whose copy succeeds delivers the byte the register holds to the
    first byte of the user buffer and to nothing else: every other user
    byte, however long the buffer was said to be, and the register itself
    keep their values. *)
Theorem read_delivers_register_byte cs filp count w s v buf :
  0 < count ->
  0 <= v < 256 ->
  kmem w !! miscdev_to_simple (private_data filp) = Some s ->
  iomem w !! addr s = Some v ->
  is_Some (umem w !! buf) ->
  exists w',
    simplemisc_read cs filp buf count w = Ret 1 w' /\
    umem w' !! buf = Some v /\
    (forall b, b <> buf -> umem w' !! b = umem w !! b) /\
    iomem w' = iomem w.
Proof.
  intros Hcount Hv Hs Hio Hbuf. eexists. split.
  { exact (simplemisc_read_copied cs filp count w Hcount s v buf Hs Hio Hbuf). }
  cbn [umem iomem log_event set_umem]. rewrite (u8_of_char_of_u8 cs v Hv).
  split; [apply lookup_insert_eq|]. split; [|reflexivity].
  intros b Hb. now apply lookup_insert_ne.
Qed.

(** X3: A write whose copy succeeds stores the first byte of the user buffer in
    the register of the instance and nowhere else: every other mapped byte
    and the whole of user memory keep their values. *)
Theorem write_stores_user_byte cs filp count w s v0 v buf :
  0 < count ->
  0 <= v < 256 ->
  kmem w !! miscdev_to_simple (private_data filp) = Some s ->
  iomem w !! addr s = Some v0 ->
  umem w !! buf = Some v ->
  exists w',
    simplemisc_write cs filp buf count w = Ret 1 w' /\
    iomem w' !! addr s = Some v /\
    (forall a, a <> addr s -> iomem w' !! a = iomem w !! a) /\
    umem w' = umem w.
Proof.
  intros Hcount Hv Hs Hio Hbuf. eexists. split.
  { exact (simplemisc_write_copied cs filp count w Hcount s v0 v buf
             Hs Hio Hbuf). }
  cbn [umem iomem log_event set_iomem]. rewrite (u8_of_char_of_u8 cs v Hv).
  split; [apply lookup_insert_eq|]. split; [|reflexivity].
  intros a Ha. now apply lookup_insert_ne.
Qed.

(** X4: Whatever it is given and however it ends, [simplemisc_read] leaves the
    device registers, the private structs, the driver data, the published
    endpoints and the managed resources as they were, and changes no user
    byte other than the one at [buf], which it never makes accessible or
    inaccessible. *)
Theorem read_changes_one_user_byte_at_most cs filp buf count w :
  let w' := outcome_world (simplemisc_read cs filp buf count w) in
  iomem w' = iomem w /\ kmem w' = kmem w /\ drvdata w' = drvdata w /\
  misc_list w' = misc_list w /\ devres w' = devres w /\
  (forall b, b <> buf -> umem w' !! b = umem w !! b) /\
  (is_Some (umem w' !! buf) <-> is_Some (umem w !! buf)).
Proof.
  unfold simplemisc_read, bind, load_priv, ioread8, copy_to_user, ret.
  destruct (count =? 0); [cbn; tauto|].
  destruct (kmem w !! _) as [s|]; [|cbn; tauto].
  destruct (iomem w !! addr s) as [v|]; [|cbn; tauto].
  cbn [put_user_bytes umem log_event].
  destruct (umem w !! buf) as [b0|] eqn:Hb; cbn.
  - repeat split; try (intros _; eauto).
    + intros b Hne. now apply lookup_insert_ne.
    + rewrite lookup_insert_eq. eauto.
  - change (Z.of_nat 1) with 1. cbn. rewrite Hb.
    repeat split; intros [x Hx]; discriminate.
Qed.

(** X5: Whatever it is given and however it ends, [simplemisc_write] leaves
    user memory, the private structs, the driver data, the published
    endpoints and the managed resources as they were, maps and unmaps
    nothing, and changes no device byte other than the register of the
    instance behind the file. *)
Theorem write_changes_one_register_at_most cs filp buf count w :
  let w' := outcome_world (simplemisc_write cs filp buf count w) in
  umem w' = umem w /\ kmem w' = kmem w /\ drvdata w' = drvdata w /\
  misc_list w' = misc_list w /\ devres w' = devres w /\
  (forall a, is_Some (iomem w' !! a) <-> is_Some (iomem w !! a)) /\
  (forall s a,
      kmem w !! miscdev_to_simple (private_data filp) = Some s ->
      a <> addr s -> iomem w' !! a = iomem w !! a).
Proof.
  unfold simplemisc_write, bind, load_priv, iowrite8, copy_from_user, ret.
  destruct (count =? 0); [cbn; split_and!; try tauto; congruence|].
  cbn [get_user_bytes umem log_event].
  destruct (umem w !! buf) as [b0|]; cbn;
    [|change (Z.of_nat 1) with 1; cbn; split_and!; try tauto; congruence].
  destruct (kmem w !! _) as [s|]; cbn; [|split_and!; try tauto; congruence].
  destruct (iomem w !! addr s) as [v0|] eqn:Hio; cbn;
    [|split_and!; try tauto; congruence].
  split_and!; try reflexivity.
  - intros a. destruct (decide (a = addr s)) as [->|Hne].
    + rewrite lookup_insert_eq, Hio. split; eauto.
    + now rewrite lookup_insert_ne.
  - intros s' a Hs' Hne. inversion Hs'; subst s'. now rewrite lookup_insert_ne.
Qed.

(** * Further properties of bind and unbind *)

(** The complete state after a bind attempt that got past the mapping
    test. *)
Lemma simple_probe_nonnull_mapping_state k pdev w :
  kzalloc_result k <> NULL ->
  ioremap_answer k (platform_get_resource pdev IORESOURCE_MEM 0) <> NULL ->
  exists w',
    simple_probe k pdev w = Ret (misc_register_result k) w' /\
    misc_list w' = (if misc_register_result k =? 0
                    then miscdev_of_simple (kzalloc_result k) :: misc_list w
                    else misc_list w) /\
    drvdata w' = kzalloc_result k /\
    kmem w' =
      <[kzalloc_result k :=
          bound_private
            (ioremap_answer k (platform_get_resource pdev IORESOURCE_MEM 0))]>
        (kmem w) /\
    iomem w' =
      (if IS_ERR (ioremap_answer k
                    (platform_get_resource pdev IORESOURCE_MEM 0))
       then iomem w
       else <[ioremap_answer k (platform_get_resource pdev IORESOURCE_MEM 0)
                := register_byte k]> (iomem w)) /\
    devres w' =
      devres w ++
        DevresMem (kzalloc_result k)
        :: (if IS_ERR (ioremap_answer k
                         (platform_get_resource pdev IORESOURCE_MEM 0))
            then []
            else [DevresIomap
                    (ioremap_answer k
                       (platform_get_resource pdev IORESOURCE_MEM 0))]) /\
    umem w' = umem w.
Proof.
  set (p := kzalloc_result k).
  set (a := ioremap_answer k (platform_get_resource pdev IORESOURCE_MEM 0)).
  intros Hp Ha. apply Z.eqb_neq in Hp, Ha.
  unfold simple_probe, bind, devm_kzalloc, devm_ioremap_resource,
    store_priv, load_priv, platform_set_drvdata, misc_register.
  fold p a. rewrite Hp, Ha. cbn [orb].
  destruct (IS_ERR a); probe_steps;
    (eexists; split; [reflexivity|]);
    destruct (misc_register_result k =? 0); probe_steps;
    cbn [umem]; rewrite ?insert_insert_eq, <- ?app_assoc; repeat split.
Qed.

(** X6: [simple_probe] never faults: the private struct is only touched after
    the allocation was tested.  It returns -ENOMEM or the answer of
    [misc_register], nothing else; it never touches user memory and never
    drops a managed resource the device already had. *)
Theorem probe_always_returns k pdev w :
  exists r w' acquired,
    simple_probe k pdev w = Ret r w' /\
    (r = - ENOMEM \/ r = misc_register_result k) /\
    umem w' = umem w /\
    devres w' = devres w ++ acquired.
Proof.
  destruct (decide (kzalloc_result k = NULL)) as [Hp|Hp].
  { rewrite (simple_probe_alloc_failed k pdev w Hp).
    eexists. eexists. exists []. split; [reflexivity|].
    split; [now left|]. split; [reflexivity|].
    cbn [devres log_event]. now rewrite app_nil_r. }
  destruct (decide (ioremap_answer k
                      (platform_get_resource pdev IORESOURCE_MEM 0) = NULL))
    as [Ha|Ha].
  - revert Ha. apply Z.eqb_neq in Hp.
    unfold simple_probe, bind, devm_kzalloc, devm_ioremap_resource,
      store_priv, load_priv.
    intros Ha. rewrite Hp, Ha. probe_steps.
    eexists. eexists. eexists. split; [reflexivity|].
    split; [now left|]. split; reflexivity.
  - destruct (simple_probe_nonnull_mapping_state k pdev w Hp Ha)
      as (w' & Hrun & _ & _ & _ & _ & Hres & Humem).
    eexists. exists w'. eexists. split; [exact Hrun|].
    split; [now right|]. split; [exact Humem|exact Hres].
Qed.


(** X8: A bind attempt that returns an error has published nothing: the list of
    registered misc devices is the one it started with. *)
Theorem failed_probe_publishes_nothing k pdev w r w' :
  simple_probe k pdev w = Ret r w' ->
  r <> 0 ->
  misc_list w' = misc_list w.
Proof.
  intros Hrun Hr.
  destruct (decide (kzalloc_result k = NULL)) as [Hp|Hp].
  { rewrite (simple_probe_alloc_failed k pdev w Hp) in Hrun.
    now inversion Hrun. }
  destruct (decide (ioremap_answer k
                      (platform_get_resource pdev IORESOURCE_MEM 0) = NULL))
    as [Ha|Ha].
  { destruct (simple_probe_null_mapping k pdev w Hp Ha)
      as (w0 & Hrun0 & Hlist & _).
    rewrite Hrun0 in Hrun. now inversion Hrun; subst. }
  destruct (simple_probe_nonnull_mapping_state k pdev w Hp Ha)
    as (w0 & Hrun0 & Hlist & _).
  rewrite Hrun0 in Hrun. inversion Hrun; subst.
  apply Z.eqb_neq in Hr. now rewrite Hr in Hlist.
Qed.

(** X9: When the allocation fails nothing else is attempted: no mapping is
    requested, and apart from the two trace entries (the allocation and the
    error message) the world is the one the bind started with. *)
Theorem probe_alloc_failure_attempts_nothing k pdev w :
  kzalloc_result k = NULL ->
  exists w',
    simple_probe k pdev w = Ret (- ENOMEM) w' /\
    iomem w' = iomem w /\ umem w' = umem w /\ kmem w' = kmem w /\
    drvdata w' = drvdata w /\ misc_list w' = misc_list w /\
    devres w' = devres w /\
    (forall q, EvIoremapResource q ∉ drop (length (trace w)) (trace w')).
Proof.
  intros Hp. rewrite (simple_probe_alloc_failed k pdev w Hp).
  eexists. split; [reflexivity|]. split_and!; try reflexivity.
  intros q. cbn [trace log_event]. rewrite <- app_assoc, drop_app_length.
  cbn. rewrite !not_elem_of_cons. split_and!; try discriminate.
  apply not_elem_of_nil.
Qed.

(** X10: [simple_probe] cleans up nothing itself.  When the registration of the
    misc device fails after a successful allocation and mapping, the error
    of [misc_register] is returned with the endpoint unpublished, while the
    driver data still points to the private struct and the struct and the
    mapping are still held as managed resources of the device. *)
Theorem registration_failure_leaves_resources_to_devm k pdev w :
  kzalloc_result k <> NULL ->
  ioremap_answer k (platform_get_resource pdev IORESOURCE_MEM 0) <> NULL ->
  IS_ERR (ioremap_answer k (platform_get_resource pdev IORESOURCE_MEM 0))
    = false ->
  misc_register_result k <> 0 ->
  exists w',
    simple_probe k pdev w = Ret (misc_register_result k) w' /\
    misc_list w' = misc_list w /\
    drvdata w' = kzalloc_result k /\
    is_Some (kmem w' !! kzalloc_result k) /\
    mapped (ioremap_answer k (platform_get_resource pdev IORESOURCE_MEM 0)) w'
      = true /\
    devres w' =
      devres w ++
        [DevresMem (kzalloc_result k);
         DevresIomap
           (ioremap_answer k (platform_get_resource pdev IORESOURCE_MEM 0))].
Proof.
  intros Hp Ha Herr Hreg.
  destruct (simple_probe_nonnull_mapping_state k pdev w Hp Ha)
    as (w' & Hrun & Hlist & Hdata & Hkmem & Hio & Hres & _).
  apply Z.eqb_neq in Hreg. rewrite Hreg in Hlist.
  rewrite Herr in Hio, Hres.
  exists w'. split_and!; try done.
  - rewrite Hkmem, lookup_insert_eq. eauto.
  - unfold mapped. apply bool_decide_eq_true.
    rewrite Hio, lookup_insert_eq. eauto.
Qed.

(** X11: [simple_probe] does not look at what the device is already bound to.
    On any world, a bound one included, a bind attempt whose allocation and
    registration succeed returns 0, replaces the driver data and publishes
    one more endpoint, the ones published before staying published. *)
Theorem probe_has_no_already_bound_check k pdev w :
  kzalloc_result k <> NULL ->
  ioremap_answer k (platform_get_resource pdev IORESOURCE_MEM 0) <> NULL ->
  misc_register_result k = 0 ->
  exists w',
    simple_probe k pdev w = Ret 0 w' /\
    drvdata w' = kzalloc_result k /\
    misc_list w' = miscdev_of_simple (kzalloc_result k) :: misc_list w /\
    (forall old, published old w = true -> published old w' = true).
Proof.
  intros Hp Ha Hreg.
  destruct (simple_probe_nonnull_mapping_state k pdev w Hp Ha)
    as (w' & Hrun & Hlist & Hdata & _).
  rewrite Hreg in Hrun, Hlist. cbn in Hlist.
  exists w'. split_and!; try done.
  intros old. unfold published. rewrite !bool_decide_eq_true, Hlist.
  intros Hold. now right.
Qed.

(** * The operations in sequence *)

(** X12: Bind, then open, write, read and close through the callback table: on a
    bind whose allocation, mapping and registration succeed, a byte written
    through the published endpoint is the byte a following read hands
    back, and open and close leave the world alone. *)
Theorem bound_endpoint_round_trip
    cs k pdev w inode v bufw bufr count count' :
  kzalloc_result k <> NULL ->
  ioremap_answer k (platform_get_resource pdev IORESOURCE_MEM 0) <> NULL ->
  IS_ERR (ioremap_answer k (platform_get_resource pdev IORESOURCE_MEM 0))
    = false ->
  misc_register_result k = 0 ->
  0 < count -> 0 < count' ->
  0 <= v < 256 ->
  umem w !! bufw = Some v ->
  is_Some (umem w !! bufr) ->
  exists w1 w2 w3,
    simple_probe k pdev w = Ret 0 w1 /\
    published (miscdev_of_simple (kzalloc_result k)) w1 = true /\
    let filp := file_of_miscdev (miscdev_of_simple (kzalloc_result k)) in
    fop_open (simple_fops cs) inode filp w1 = Ret 0 w1 /\
    fop_write (simple_fops cs) filp bufw count w1 = Ret 1 w2 /\
    fop_read (simple_fops cs) filp bufr count' w2 = Ret 1 w3 /\
    umem w3 !! bufr = Some v /\
    fop_release (simple_fops cs) inode filp w3 = Ret 0 w3.
Proof.
  intros Hp Ha Herr Hreg Hcount Hcount' Hv Hw Hr.
  destruct (simple_probe_nonnull_mapping_state k pdev w Hp Ha)
    as (w1 & Hrun & Hlist & _ & Hkmem & Hio & _ & Humem).
  rewrite Hreg in Hrun, Hlist. cbn in Hlist. rewrite Herr in Hio.
  set (a := ioremap_answer k (platform_get_resource pdev IORESOURCE_MEM 0))
    in *.
  set (filp := file_of_miscdev (miscdev_of_simple (kzalloc_result k))).
  assert (Hs : kmem w1 !! miscdev_to_simple (private_data filp)
               = Some (bound_private a)).
  { unfold filp, file_of_miscdev. cbn [private_data].
    rewrite miscdev_to_simple_of_simple, Hkmem. apply lookup_insert_eq. }
  assert (Hreg1 : iomem w1 !! addr (bound_private a) = Some (register_byte k)).
  { cbn [addr bound_private]. rewrite Hio. apply lookup_insert_eq. }
  rewrite <- Humem in Hw, Hr.
  pose proof (simplemisc_write_copied cs filp count w1 Hcount _ _ _ bufw
                Hs Hreg1 Hw) as Hwrite.
  rewrite (u8_of_char_of_u8 cs v Hv) in Hwrite.
  eexists w1, _, _. split; [exact Hrun|].
  split. { unfold published. rewrite Hlist. apply bool_decide_eq_true. left. }
  cbn zeta. cbn [fop_open fop_write fop_read fop_release simple_fops].
  split; [reflexivity|]. split; [exact Hwrite|].
  split.
  { apply simplemisc_read_copied with (s := bound_private a) (v := v);
      [exact Hcount'|exact Hs| |exact Hr].
    cbn [iomem log_event set_iomem]. apply lookup_insert_eq. }
  split; [|reflexivity].
  cbn [umem log_event set_umem set_iomem].
  rewrite (u8_of_char_of_u8 cs v Hv). apply lookup_insert_eq.
Qed.

(** X13: The endpoint published by a bind whose mapping was answered with an
    [ERR_PTR] value is not usable: with nothing mapped at that pointer,
    every read of positive length through it faults before anything is
    copied, and every write faults once the user byte has been fetched,
    without a store. *)
Theorem requests_fault_after_failed_mapping cs k pdev w buf count :
  kzalloc_result k <> NULL ->
  IS_ERR (ioremap_answer k (platform_get_resource pdev IORESOURCE_MEM 0))
    = true ->
  misc_register_result k = 0 ->
  iomem w !! ioremap_answer k (platform_get_resource pdev IORESOURCE_MEM 0)
    = None ->
  0 < count ->
  exists w1,
    simple_probe k pdev w = Ret 0 w1 /\
    let filp := file_of_miscdev (miscdev_of_simple (kzalloc_result k)) in
    simplemisc_read cs filp buf count w1 = Oops w1 /\
    iomem (outcome_world (simplemisc_write cs filp buf count w1)) = iomem w /\
    (is_Some (umem w !! buf) ->
     simplemisc_write cs filp buf count w1
       = Oops (log_event (EvCopyFromUser buf 1 0) w1)).
Proof.
  intros Hp Herr Hreg Hnone Hcount.
  destruct (simple_probe_nonnull_mapping_state k pdev w Hp
              (IS_ERR_not_NULL _ Herr))
    as (w1 & Hrun & _ & _ & Hkmem & Hio & _ & Humem).
  rewrite Hreg in Hrun. rewrite Herr in Hio.
  exists w1. split; [exact Hrun|]. cbn zeta.
  assert (Hc : (count =? 0) = false) by (apply Z.eqb_neq; lia).
  unfold simplemisc_read, simplemisc_write, bind, load_priv, ioread8,
    iowrite8, copy_from_user, file_of_miscdev.
  cbn [private_data get_user_bytes]. rewrite Hc.
  rewrite miscdev_to_simple_of_simple, Hkmem, lookup_insert_eq.
  cbn [addr bound_private]. rewrite Hio, Hnone, Humem.
  split; [reflexivity|].
  destruct (umem w !! buf) as [b|]; cbn; rewrite ?Hkmem, ?lookup_insert_eq;
    cbn; rewrite ?Hio, ?Hnone; cbn.
  - split; [exact Hio|reflexivity].
  - change (Z.of_nat 1) with 1. cbn.
    split; [exact Hio|]. intros [x Hx]. discriminate.
Qed.


(** X15: A complete bind followed by [simple_remove]: the list of published
    endpoints is back to what it was before the bind, and the remove has
    released nothing, the private struct and the mapping made by the bind
    being still in place. *)
Theorem probe_then_remove_restores_endpoints k pdev w :
  kzalloc_result k <> NULL ->
  ioremap_answer k (platform_get_resource pdev IORESOURCE_MEM 0) <> NULL ->
  IS_ERR (ioremap_answer k (platform_get_resource pdev IORESOURCE_MEM 0))
    = false ->
  misc_register_result k = 0 ->
  miscdev_of_simple (kzalloc_result k) ∉ misc_list w ->
  exists w1 w2,
    simple_probe k pdev w = Ret 0 w1 /\
    simple_remove pdev w1 = Ret 0 w2 /\
    misc_list w2 = misc_list w /\
    is_Some (kmem w2 !! kzalloc_result k) /\
    mapped (ioremap_answer k (platform_get_resource pdev IORESOURCE_MEM 0)) w2
      = true /\
    devres w2 = devres w1.
Proof.
  intros Hp Ha Herr Hreg Hfresh.
  destruct (simple_probe_nonnull_mapping_state k pdev w Hp Ha)
    as (w1 & Hrun & Hlist & Hdata & Hkmem & Hio & _).
  rewrite Hreg in Hrun, Hlist. cbn in Hlist. rewrite Herr in Hio.
  assert (Hs : kmem w1 !! drvdata w1 = Some (bound_private
             (ioremap_answer k (platform_get_resource pdev IORESOURCE_MEM 0)))).
  { rewrite Hdata, Hkmem. apply lookup_insert_eq. }
  exists w1. eexists. split; [exact Hrun|].
  split; [exact (simple_remove_bound pdev w1 _ Hs)|].
  cbn [misc_list kmem devres log_event set_misc_list].
  split_and!; try reflexivity.
  - rewrite Hlist, Hdata. rewrite filter_cons_False by (intros H; now apply H).
    now apply filter_other_than_absent.
  - rewrite Hkmem, lookup_insert_eq. eauto.
  - unfold mapped. apply bool_decide_eq_true.
    cbn [iomem log_event set_misc_list]. rewrite Hio, lookup_insert_eq. eauto.
Qed.

(** X16: Bind and unbind as the driver core runs them, with the managed
    resources released after [simple_remove] has returned: on a device that
    holds no managed resource, with the addresses handed out by the kernel
    fresh, a complete bind followed by an unbind leaves no mapping, no
    private struct, no published endpoint and no managed resource behind,
    and user memory untouched. *)
Theorem bind_then_unbind_leaves_nothing k pdev w :
  kzalloc_result k <> NULL ->
  ioremap_answer k (platform_get_resource pdev IORESOURCE_MEM 0) <> NULL ->
  IS_ERR (ioremap_answer k (platform_get_resource pdev IORESOURCE_MEM 0))
    = false ->
  misc_register_result k = 0 ->
  devres w = [] ->
  kmem w !! kzalloc_result k = None ->
  iomem w !! ioremap_answer k (platform_get_resource pdev IORESOURCE_MEM 0)
    = None ->
  miscdev_of_simple (kzalloc_result k) ∉ misc_list w ->
  exists w1 w2,
    really_probe k pdev w = Ret 0 w1 /\
    device_release_driver pdev w1 = Ret 0 w2 /\
    iomem w2 = iomem w /\ kmem w2 = kmem w /\ umem w2 = umem w /\
    misc_list w2 = misc_list w /\ devres w2 = [] /\ drvdata w2 = NULL.
Proof.
  intros Hp Ha Herr Hreg Hres0 Hkfresh Hiofresh Hfresh.
  destruct (simple_probe_nonnull_mapping_state k pdev w Hp Ha)
    as (w1 & Hrun & Hlist & Hdata & Hkmem & Hio & Hres & Humem).
  rewrite Hreg in Hrun, Hlist. cbn in Hlist.
  rewrite Herr in Hio, Hres. rewrite Hres0 in Hres. cbn in Hres.
  assert (Hs : kmem w1 !! drvdata w1 = Some (bound_private
             (ioremap_answer k (platform_get_resource pdev IORESOURCE_MEM 0)))).
  { rewrite Hdata, Hkmem. apply lookup_insert_eq. }
  exists w1. eexists. split.
  { unfold really_probe. rewrite (bind_Ret _ _ _ _ _ Hrun). reflexivity. }
  unfold device_release_driver.
  rewrite (bind_Ret _ _ _ _ _ (simple_remove_bound pdev w1 _ Hs)).
  unfold bind, devres_release_all, platform_set_drvdata, ret.
  cbn [devres log_event set_misc_list]. rewrite Hres.
  split; [reflexivity|].
  cbn [rev app fold_left release_entry iomem kmem umem misc_list devres
       drvdata log_event set_devres set_kmem set_iomem set_drvdata
       set_misc_list].
  split_and!; try reflexivity.
  - rewrite Hio. now apply delete_insert_id.
  - rewrite Hkmem. now apply delete_insert_id.
  - exact Humem.
  - rewrite Hlist, Hdata. rewrite filter_cons_False by (intros H; now apply H).
    now apply filter_other_than_absent.
Qed.

(** ** The further properties at work on the demo platform *)

Lemma request_length_demo :
  simplemisc_read true demo_file 200 1 demo_bound
    = simplemisc_read true demo_file 200 7 demo_bound /\
  simplemisc_write true demo_file 300 1 demo_bound
    = simplemisc_write true demo_file 300 7 demo_bound.
Proof.
  split.
  - apply (request_length_is_irrelevant true demo_file 200 1 7 demo_bound);
      lia.
  - apply (request_length_is_irrelevant true demo_file 300 1 7 demo_bound);
      lia.
Defined.

Lemma read_delivery_demo :
  exists w',
    simplemisc_read true demo_file 200 3 demo_bound = Ret 1 w' /\
    umem w' !! 200 = Some 7 /\
    (forall b, b <> 200 -> umem w' !! b = umem demo_bound !! b) /\
    iomem w' = iomem demo_bound.
Proof.
  apply (read_delivers_register_byte true demo_file 3 demo_bound demo_private);
    [lia | lia | reflexivity | reflexivity | eexists; reflexivity].
Defined.

Lemma write_store_demo :
  exists w',
    simplemisc_write false demo_file 100 3 demo_bound = Ret 1 w' /\
    iomem w' !! addr demo_private = Some 171 /\
    (forall a, a <> addr demo_private ->
               iomem w' !! a = iomem demo_bound !! a) /\
    umem w' = umem demo_bound.
Proof.
  apply (write_stores_user_byte false demo_file 3 demo_bound demo_private 7);
    [lia | lia | reflexivity | reflexivity | reflexivity].
Defined.

Lemma read_frame_demo :
  umem (outcome_world (simplemisc_read true demo_file 200 3 demo_bound)) !! 100
    = umem demo_bound !! 100.
Proof.
  destruct (read_changes_one_user_byte_at_most true demo_file 200 3 demo_bound)
    as (_ & _ & _ & _ & _ & Hother & _).
  apply Hother. lia.
Defined.

Lemma write_frame_demo :
  iomem (outcome_world (simplemisc_write true demo_file 100 3 demo_bound))
    !! 6000 = iomem demo_bound !! 6000.
Proof.
  destruct (write_changes_one_register_at_most
              true demo_file 100 3 demo_bound)
    as (_ & _ & _ & _ & _ & _ & Hother).
  apply (Hother demo_private); [reflexivity | cbn; lia].
Defined.


Lemma failed_probe_demo :
  misc_list (outcome_world
               (simple_probe register_failure_answers demo_pdev demo_unbound))
    = misc_list demo_unbound.
Proof.
  apply (failed_probe_publishes_nothing
           register_failure_answers demo_pdev demo_unbound (- ENOMEM));
    [vm_compute; reflexivity | vm_compute; discriminate].
Defined.

Lemma alloc_failure_demo :
  exists w',
    simple_probe alloc_failure_answers demo_pdev demo_unbound
      = Ret (- ENOMEM) w' /\
    kmem w' = kmem demo_unbound /\ devres w' = devres demo_unbound.
Proof.
  destruct (probe_alloc_failure_attempts_nothing
              alloc_failure_answers demo_pdev demo_unbound)
    as (w' & Hrun & _ & _ & Hkmem & _ & _ & Hres & _); [reflexivity|].
  exists w'. split; [exact Hrun|]. split; [exact Hkmem | exact Hres].
Defined.

Lemma registration_failure_demo :
  exists w',
    simple_probe register_failure_answers demo_pdev demo_unbound
      = Ret (- ENOMEM) w' /\
    misc_list w' = [] /\
    drvdata w' = 3000 /\
    devres w' = [DevresMem 3000; DevresIomap 5000].
Proof.
  destruct (registration_failure_leaves_resources_to_devm
              register_failure_answers demo_pdev demo_unbound)
    as (w' & Hrun & Hlist & Hdata & _ & _ & Hres);
    [vm_compute; discriminate | vm_compute; discriminate | reflexivity
    | vm_compute; discriminate |].
  exists w'. split; [exact Hrun|].
  split; [exact Hlist|]. split; [exact Hdata | exact Hres].
Defined.

Lemma rebind_demo :
  exists w',
    simple_probe rebind_answers demo_pdev demo_bound = Ret 0 w' /\
    drvdata w' = 3100 /\
    misc_list w' = [3100; 3000].
Proof.
  destruct (probe_has_no_already_bound_check
              rebind_answers demo_pdev demo_bound)
    as (w' & Hrun & Hdata & Hlist & _);
    [vm_compute; discriminate | vm_compute; discriminate | reflexivity |].
  exists w'. split; [exact Hrun|]. split; [exact Hdata | exact Hlist].
Defined.

Lemma endpoint_round_trip_demo :
  exists w1 w2 w3,
    simple_probe demo_answers demo_pdev demo_unbound = Ret 0 w1 /\
    simplemisc_write true demo_file 100 1 w1 = Ret 1 w2 /\
    simplemisc_read true demo_file 200 1 w2 = Ret 1 w3 /\
    umem w3 !! 200 = Some 171.
Proof.
  destruct (bound_endpoint_round_trip
              true demo_answers demo_pdev demo_unbound 0 171 100 200 1 1)
    as (w1 & w2 & w3 & Hrun & _ & _ & Hwrite & Hread & Hbyte & _);
    [vm_compute; discriminate | vm_compute; discriminate | reflexivity
    | reflexivity | lia | lia | lia | reflexivity | eexists; reflexivity |].
  exists w1, w2, w3. split; [exact Hrun|].
  split; [exact Hwrite|]. split; [exact Hread | exact Hbyte].
Defined.

Lemma fault_after_failed_mapping_demo :
  exists w1,
    simple_probe busy_answers demo_pdev demo_unbound = Ret 0 w1 /\
    simplemisc_read true demo_file 200 1 w1 = Oops w1.
Proof.
  destruct (requests_fault_after_failed_mapping
              true busy_answers demo_pdev demo_unbound 200 1)
    as (w1 & Hrun & Hread & _);
    [vm_compute; discriminate | reflexivity | reflexivity | reflexivity
    | lia |].
  exists w1. split; [exact Hrun | exact Hread].
Defined.


Lemma probe_then_remove_demo :
  exists w1 w2,
    simple_probe demo_answers demo_pdev demo_unbound = Ret 0 w1 /\
    simple_remove demo_pdev w1 = Ret 0 w2 /\
    misc_list w2 = misc_list demo_unbound.
Proof.
  destruct (probe_then_remove_restores_endpoints
              demo_answers demo_pdev demo_unbound)
    as (w1 & w2 & Hrun & Hrm & Hlist & _);
    [vm_compute; discriminate | vm_compute; discriminate | reflexivity
    | reflexivity | apply (bool_decide_unpack _); vm_compute; exact I |].
  exists w1, w2. split; [exact Hrun|]. split; [exact Hrm | exact Hlist].
Defined.

Lemma bind_then_unbind_demo :
  exists w1 w2,
    really_probe demo_answers demo_pdev demo_unbound = Ret 0 w1 /\
    device_release_driver demo_pdev w1 = Ret 0 w2 /\
    iomem w2 = iomem demo_unbound /\ kmem w2 = kmem demo_unbound /\
    misc_list w2 = misc_list demo_unbound /\ devres w2 = [].
Proof.
  destruct (bind_then_unbind_leaves_nothing
              demo_answers demo_pdev demo_unbound)
    as (w1 & w2 & Hrun & Hrel & Hio & Hkmem & _ & Hlist & Hres & _);
    [vm_compute; discriminate | vm_compute; discriminate | reflexivity
    | reflexivity | reflexivity | reflexivity | reflexivity
    | apply (bool_decide_unpack _); vm_compute; exact I |].
  exists w1, w2. split; [exact Hrun|]. split; [exact Hrel|].
  split; [exact Hio|]. split; [exact Hkmem|]. split; [exact Hlist | exact Hres].
Defined.
